(** * The clinical-trial pipeline: [airflow/dags/airflow_dag_clinical_trial.py]

    The file declares one workflow, "dag_clinical_trial", made of three
    Python callables ([extract], [transform], [load]) wrapped in
    [PythonOperator]s and chained with [>>].  The callables talk to each
    other only through the host's run-scoped XCom table, through the task
    instance [ti] the host passes in [kwargs].

    The embedding keeps the three callables as they are written, as
    computations in a small state-and-exception monad over a [World]: the
    XCom table of the run, the trace of what the callable did (pushes,
    pulls, prints), and the state of the outside dataset source.  The
    dataset library ([tdc.multi_pred.TrialOutcome]) and the serialiser of
    the host's XCom table are outside the repository and are taken as
    parameters of the development. *)

From stdpp Require Import gmap strings list fin_maps relations.
From Stdlib Require Import ZArith Lia.

(** ** Exceptions and results *)

Inductive exn : Type :=
  | KeyError (k : string)          (* [d[k]] on a dict without [k] *)
  | TypeError                      (* subscripting a non-subscriptable value *)
  | AttributeError (a : string)    (* method call on a value without it *)
  | LibraryError (msg : string).   (* anything the dataset library raises *)

Inductive Result (A : Type) : Type :=
  | Ok (a : A)
  | Raise (e : exn).
Arguments Ok {A} a.
Arguments Raise {A} e.

Definition is_ok {A} (r : Result A) : bool :=
  match r with Ok _ => true | Raise _ => false end.

Section Values.

(** The payload type of a dataset split (a data frame of trial records);
    the pipeline never looks inside it.  Values over [Frame] are values as
    the exchange store holds them and hands them back. *)
Context {Frame : Type}.

(** ** Python values that travel through the pipeline *)

#[local] Set Warnings "-register-all".
Inductive pyval : Type :=
  | PyNone
  | PyFrame (f : Frame)
  | PyDict (d : list (string * pyval)).

(** The first binding of [k] in a dict, if any. *)
Fixpoint dict_get (d : list (string * pyval)) (k : string) : option pyval :=
  match d with
  | [] => None
  | (k', v) :: d' => if String.eqb k' k then Some v else dict_get d' k
  end.

(** ** The world a callable runs in *)

(** What a callable does that can be observed from outside. *)
Inductive event : Type :=
  | EvPush (task key : string) (v : pyval)   (* ti.xcom_push(key, v) by [task] *)
  | EvPull (task key : string)               (* ti.xcom_pull(task_ids=task, key=key) *)
  | EvPrint (v : pyval).                     (* print(v) *)

(** State of the outside dataset source (remote server, local cache). *)
Context {SrcState : Type}.

Record World : Type := mkWorld {
  xcom : gmap (string * string) pyval;  (* (task_id, key) -> value, this run *)
  log : list event;                     (* oldest event first *)
  env : SrcState
}.

Definition M (A : Type) : Type := World -> Result A * World.

Definition ret {A} (a : A) : M A := fun w => (Ok a, w).

Definition bind {A B} (m : M A) (k : A -> M B) : M B :=
  fun w =>
    match m w with
    | (Ok a, w') => k a w'
    | (Raise e, w') => (Raise e, w')
    end.

Definition lift {A} (r : Result A) : M A := fun w => (r, w).

Definition emit (ev : event) : M unit :=
  fun w => (Ok tt, mkWorld (xcom w) (log w ++ [ev]) (env w)).


(** ** What the host passes to a callable *)

(** A value of [kwargs]: the task instance handle (known by the id of the
    task it runs) or some other context value. *)
Inductive kwval : Type :=
  | KTi (task_id : string)
  | KVal (v : pyval).

(** [kwargs["ti"]] *)
Definition kw_getitem (kwargs : gmap string kwval) (k : string) : M kwval :=
  match kwargs !! k with
  | Some v => ret v
  | None => lift (Raise (KeyError k))
  end.

(** What the host's XCom table makes of a value handed to [xcom_push]: the
    value as it will be read back, or the exception of the serialiser when
    the value cannot be stored. *)
Class Serializable (A : Type) : Type :=
  serialize_value : A -> Result pyval.

(** A value that was read back from the store is stored again as it is. *)
#[global] Instance stored_serializable : Serializable pyval := Ok.

(** [ti.xcom_push(key, value)]: the host serialises the value and files it
    under the id of the running task and the key, replacing what was there;
    when the value cannot be serialised the exception of the serialiser is
    raised and nothing is filed. *)
Definition xcom_push {A : Type} {ser : Serializable A}
    (ti : kwval) (key : string) (value : A) : M unit :=
  match ti with
  | KTi me =>
      fun w =>
        match serialize_value value with
        | Ok v =>
            (Ok tt,
             mkWorld (<[(me, key) := v]> (xcom w))
                     (log w ++ [EvPush me key v]) (env w))
        | Raise e => (Raise e, w)
        end
  | KVal _ => lift (Raise (AttributeError "xcom_push"))
  end.

(** [ti.xcom_pull(task_ids=t, key=k)] with one task id, as the host
    documents it: the value filed under [(t, k)] in this run, and the
    default, [None], when nothing was filed (the callables pass no other
    default).  The table is not changed. *)
Definition xcom_pull (ti : kwval) (task_ids key : string) : M pyval :=
  match ti with
  | KTi _ =>
      fun w =>
        (Ok (default PyNone (xcom w !! (task_ids, key))),
         mkWorld (xcom w) (log w ++ [EvPull task_ids key]) (env w))
  | KVal _ => lift (Raise (AttributeError "xcom_pull"))
  end.

(** [print(v)] *)
Definition print (v : pyval) : M unit := emit (EvPrint v).

End Values.

Arguments pyval : clear implicits.
Arguments event : clear implicits.
Arguments kwval : clear implicits.
Arguments World : clear implicits.
Arguments M : clear implicits.
Arguments Serializable : clear implicits.

Notation "'let*' x ':=' m 'in' k" := (bind m (fun x => k))
  (at level 10, x pattern, m at level 100, k at level 200).

(** ** The dataset library (outside the repository) *)

(** What the pipeline uses of [tdc.multi_pred]: the constructor
    [TrialOutcome(name = n)], which may fail and may change the state of the
    source (download, cache), the method [get_split()], which normally
    gives a dict with the keys 'train', 'valid' and 'test', and the
    subscript [f[k]] of a data frame (a column, or [KeyError]).  [Obj] is
    the type of the data frames the library builds in memory. *)
Class DatasetSource (Obj SrcState DataLoader : Type) : Type := {
  TrialOutcome : string -> SrcState -> Result DataLoader * SrcState;
  get_split : DataLoader -> SrcState -> Result (pyval Obj) * SrcState;
  frame_getitem : Obj -> string -> Result (pyval Obj)
}.

(** ** The serialiser of the host's XCom table (outside the repository) *)

(** What the host makes of an object of the library handed to [xcom_push]:
    the value the store will hold and hand back, or an exception ([TypeError]
    for an object it cannot serialise). *)
Class XComBackend (Obj Frame : Type) : Type := {
  serialize_object : pyval Obj -> Result (pyval Frame)
}.

(** ** Small dataset sources to run the pipeline on *)

Module Demo.

(** A source that knows every partition by its name: the loader is the
    name, the state counts the downloads, and the splits are frames named
    after the partition. *)
Definition named_TrialOutcome (name : string) (downloads : nat)
    : Result string * nat :=
  (Ok name, S downloads).

Definition named_get_split (data : string) (downloads : nat)
    : Result (pyval string) * nat :=
  (Ok (PyDict [("train", PyFrame (data +:+ "/train"));
               ("valid", PyFrame (data +:+ "/valid"));
               ("test", PyFrame (data +:+ "/test"))]),
   downloads).

(** A source that cannot be reached. *)
Definition offline_TrialOutcome (name : string) (downloads : nat)
    : Result string * nat :=
  (Raise (LibraryError "dataset unavailable"), downloads).

(** A source that answers only while the state says it is up. *)
Definition flaky_TrialOutcome (name : string) (up : bool)
    : Result string * bool :=
  (if up then Ok name else Raise (LibraryError "dataset unavailable"), up).

Definition flaky_get_split (data : string) (up : bool)
    : Result (pyval string) * bool :=
  (Ok (PyDict [("train", PyFrame (data +:+ "/train"))]), up).

(** The frames of these sources have no columns. *)
Definition no_column (f k : string) : Result (pyval string) :=
  Raise (KeyError k).

Definition named_source : DatasetSource string nat string :=
  {| TrialOutcome := named_TrialOutcome; get_split := named_get_split;
     frame_getitem := no_column |}.

Definition offline_source : DatasetSource string nat string :=
  {| TrialOutcome := offline_TrialOutcome; get_split := named_get_split;
     frame_getitem := no_column |}.

Definition flaky_source : DatasetSource string bool string :=
  {| TrialOutcome := flaky_TrialOutcome; get_split := flaky_get_split;
     frame_getitem := no_column |}.

(** A host that stores every object as it is (a serialiser for data frames
    is installed). *)
#[global] Instance plain_backend : XComBackend string string :=
  {| serialize_object := Ok |}.

(** A host that stores [None] and dicts but has no serialiser for data
    frames: an object with a frame in it is refused with [TypeError]. *)
Fixpoint has_frame (v : pyval string) : bool :=
  match v with
  | PyNone => false
  | PyFrame _ => true
  | PyDict d => existsb (fun kv => has_frame kv.2) d
  end.

Definition strict_backend : XComBackend string string :=
  {| serialize_object :=
       fun v => if has_frame v then Raise TypeError else Ok v |}.

(** A source whose split has no 'train' entry. *)
Definition trainless_get_split (data : string) (downloads : nat)
    : Result (pyval string) * nat :=
  (Ok (PyDict [("valid", PyFrame (data +:+ "/valid"));
               ("test", PyFrame (data +:+ "/test"))]),
   downloads).

Definition trainless_source : DatasetSource string nat string :=
  {| TrialOutcome := named_TrialOutcome; get_split := trainless_get_split;
     frame_getitem := no_column |}.

End Demo.

(** ** Task states of the host *)

Inductive status : Type :=
  | Queued
  | Running
  | Succeeded
  | Retrying      (* failed, waiting for another attempt *)
  | Failed.

#[global] Instance status_eq_dec : EqDecision status.
Proof. solve_decision. Defined.

#[global] Instance status_inhabited : Inhabited status := populate Queued.

Section Pipeline.

Context {Frame SrcState DataLoader : Type}.

(** Objects of the dataset library, before the host has stored them. *)
Context {Obj : Type}.

Abbreviation pyobj := (pyval Obj).
Abbreviation pyval := (pyval Frame).
Abbreviation kwval := (kwval Frame).
Abbreviation World := (World Frame SrcState).
Abbreviation M := (M Frame SrcState).

Context {src : DatasetSource Obj SrcState DataLoader}.
Context {backend : XComBackend Obj Frame}.

(** An object of the library is serialised by the host's backend. *)
#[local] Instance object_serializable : Serializable Frame pyobj :=
  serialize_object.

(** [o[k]]: the first binding of [k] in a dict and [KeyError] when there is
    none, the library's subscript on a data frame, [TypeError] on [None]. *)
Definition getitem (o : pyobj) (k : string) : Result pyobj :=
  match o with
  | PyDict d =>
      match dict_get d k with
      | Some v => Ok v
      | None => Raise (KeyError k)
      end
  | PyFrame f => frame_getitem f k
  | PyNone => Raise TypeError
  end.

Definition call_TrialOutcome (name : string) : M DataLoader :=
  fun w =>
    let '(r, s) := TrialOutcome name (env w) in
    (r, mkWorld (xcom w) (log w) s).

Definition call_get_split (data : DataLoader) : M pyobj :=
  fun w =>
    let '(r, s) := get_split data (env w) in
    (r, mkWorld (xcom w) (log w) s).

(** ** The three callables (lines 61-87) *)

Definition extract (kwargs : gmap string kwval) : M pyval :=
  let* ti := kw_getitem kwargs "ti" in
  let* data := call_TrialOutcome "phase1" in
  let* split := call_get_split data in
  let* data_train := lift (getitem split "train") in
  let* _ := xcom_push ti "order_data" data_train in
  ret PyNone.

Definition transform (kwargs : gmap string kwval) : M pyval :=
  let* ti := kw_getitem kwargs "ti" in
  let* extract_data_string := xcom_pull ti "extract" "order_data" in
  let* _ := print extract_data_string in
  let* _ := xcom_push ti "total_order_value" extract_data_string in
  ret PyNone.

Definition load (kwargs : gmap string kwval) : M pyval :=
  let* ti := kw_getitem kwargs "ti" in
  let* total_value_string := xcom_pull ti "transform" "total_order_value" in
  let* _ := print total_value_string in
  ret PyNone.

(** ** The workflow declaration (lines 43-54 and 91-129) *)

(** The documentation strings ([doc_md]) of the workflow and of its
    operators play no part in what runs and are left out. *)

Record Operator : Type := mkOperator {
  task_id : string;
  python_callable : gmap string kwval -> M pyval;
  retries : nat
}.

Record DAG : Type := mkDAG {
  dag_id : string;
  default_args : list (string * nat);
  description : string;
  schedule : option string;          (* [None]: no timetable *)
  catchup : bool;
  tags : list string;
  task_dict : list Operator;          (* in order of declaration *)
  edges : list (string * string)     (* (upstream id, downstream id) *)
}.

(** [DAG(dag_id, default_args=..., description=..., schedule=...,
    catchup=..., tags=...)]: a workflow without tasks. *)
Definition new_DAG (id : string) (dargs : list (string * nat))
    (descr : string) (sched : option string) (cu : bool)
    (tgs : list string) : DAG :=
  mkDAG id dargs descr sched cu tgs [] [].

Fixpoint args_get (a : list (string * nat)) (k : string) : option nat :=
  match a with
  | [] => None
  | (k', v) :: a' => if String.eqb k' k then Some v else args_get a' k
  end.

(** [PythonOperator(task_id=..., python_callable=...)] inside [with dag]:
    the operator takes what it is not given from the workflow's
    [default_args] (the host's own default for [retries] is 0) and is
    added to the workflow. *)
Definition PythonOperator (id : string)
    (callable : gmap string kwval -> M pyval) (d : DAG) : Operator * DAG :=
  let op := mkOperator id callable (default 0 (args_get (default_args d) "retries")) in
  (op, mkDAG (dag_id d) (default_args d) (description d) (schedule d)
             (catchup d) (tags d) (task_dict d ++ [op]) (edges d)).

(** [a >> b]: [b] becomes downstream of [a]; the value of the expression
    is [b], so that [a >> b >> c] chains. *)
Definition rshift (a b : Operator) (d : DAG) : Operator * DAG :=
  (b, mkDAG (dag_id d) (default_args d) (description d) (schedule d)
            (catchup d) (tags d) (task_dict d)
            (edges d ++ [(task_id a, task_id b)])).

Definition dag : DAG :=
  let dag :=
    new_DAG "dag_clinical_trial" [("retries", 2)] "DAG clinical trial"
            None false ["example"] in
  let '(extract_task, dag) := PythonOperator "extract" extract dag in
  let '(transform_task, dag) := PythonOperator "transform" transform dag in
  let '(load_task, dag) := PythonOperator "load" load dag in
  let '(chained, dag) := rshift extract_task transform_task dag in
  let '(_, dag) := rshift chained load_task dag in
  dag.

(** ** Reading the dependency graph *)

Definition upstream (d : DAG) (t : string) : list string :=
  (filter (fun e => e.2 = t) (edges d)).*1.

Definition downstream (d : DAG) (t : string) : list string :=
  (filter (fun e => e.1 = t) (edges d)).*2.

Definition edge (d : DAG) (u t : string) : Prop := (u, t) ∈ edges d.

(** ** The host running the workflow *)

(** The context the host hands to the callable of task [t]. *)
Definition context (t : string) : gmap string kwval := {[ "ti" := KTi t ]}.

(** [PythonOperator.execute]: call the callable with the context as
    keyword arguments; a result other than [None] is filed under
    "return_value". *)
Definition execute (op : Operator) : M pyval :=
  let* r := python_callable op (context (task_id op)) in
  let* _ := match r with
            | PyNone => ret tt
            | _ => xcom_push (KTi (task_id op)) "return_value" r
            end in
  ret r.

Record Run : Type := mkRun {
  states : gmap string status;   (* absent: [Queued] *)
  tries : gmap string nat;       (* attempts started, absent: 0 *)
  world : World
}.

(** A run starts with every task queued and an empty XCom table. *)
Definition new_run (s : SrcState) : Run := mkRun ∅ ∅ (mkWorld ∅ [] s).

(** A task may start when every task upstream of it has succeeded. *)
Definition ready (d : DAG) (r : Run) (t : string) : Prop :=
  ∀ u, u ∈ upstream d t → states r !!! u = Succeeded.

(** A failed attempt is retried while the attempts made do not exceed the
    task's [retries]. *)
Definition after_failure (op : Operator) (r : Run) : status :=
  if decide (tries r !!! task_id op ≤ retries op) then Retrying else Failed.

(** Modelled from the spec: the executor of the host, which is not part of
    the repository (sections 4 and 7 of the specification).  Per stage:
    queued -> running -> succeeded, or failed-retrying -> running again, or
    failed; a stage starts only when all its predecessors have succeeded, so
    the failure of a stage blocks its successors; a data-retrieval failure
    is retried up to the stage's [retries], then the stage is failed. *)
Inductive step (d : DAG) : Run -> Run -> Prop :=
  | step_start op r :
      op ∈ task_dict d ->
      states r !!! task_id op = Queued ∨ states r !!! task_id op = Retrying ->
      ready d r (task_id op) ->
      step d r (mkRun (<[task_id op := Running]> (states r))
                      (<[task_id op := S (tries r !!! task_id op)]> (tries r))
                      (world r))
  | step_success op r v w' :
      op ∈ task_dict d ->
      states r !!! task_id op = Running ->
      execute op (world r) = (Ok v, w') ->
      step d r (mkRun (<[task_id op := Succeeded]> (states r)) (tries r) w')
  | step_failure op r e w' :
      op ∈ task_dict d ->
      states r !!! task_id op = Running ->
      execute op (world r) = (Raise e, w') ->
      step d r (mkRun (<[task_id op := after_failure op r]> (states r))
                      (tries r) w')
  | step_env r s' :
      (* the outside source changes on its own *)
      step d r (mkRun (states r) (tries r)
                      (mkWorld (xcom (world r)) (log (world r)) s')).

Definition reachable (d : DAG) (r : Run) : Prop :=
  ∃ s, rtc (step d) (new_run s) r.

(** ** Reading a trace *)

(** The keys written, oldest first. *)
Fixpoint pushes (l : list (event Frame)) : list (string * string) :=
  match l with
  | [] => []
  | EvPush t k _ :: l' => (t, k) :: pushes l'
  | _ :: l' => pushes l'
  end.

(** The keys read, oldest first. *)
Fixpoint pulls (l : list (event Frame)) : list (string * string) :=
  match l with
  | [] => []
  | EvPull t k :: l' => (t, k) :: pulls l'
  | _ :: l' => pulls l'
  end.

(** What was printed, oldest first. *)
Fixpoint printed (l : list (event Frame)) : list pyval :=
  match l with
  | [] => []
  | EvPrint v :: l' => v :: printed l'
  | _ :: l' => printed l'
  end.

(** ** What a run of this workflow has done, by the stages that succeeded *)

Definition done (st : gmap string status) (t : string) : bool :=
  bool_decide (st !!! t = Succeeded).

Definition expected_log (v : pyval) (e t l : bool) : list (event Frame) :=
  (if e then [EvPush "extract" "order_data" v] else []) ++
  (if t then [EvPull "extract" "order_data"; EvPrint v;
              EvPush "transform" "total_order_value" v] else []) ++
  (if l then [EvPull "transform" "total_order_value"; EvPrint v] else []).

Definition expected_xcom (v : pyval) (e t : bool)
    : gmap (string * string) pyval :=
  (if t then <[("transform", "total_order_value") := v]> else id)
    (if e then {[ ("extract", "order_data") := v ]} else ∅).

Definition exchange (r : Run) : Prop :=
  ∃ v,
    log (world r) =
      expected_log v (done (states r) "extract") (done (states r) "transform")
                     (done (states r) "load") ∧
    xcom (world r) =
      expected_xcom v (done (states r) "extract") (done (states r) "transform").

(** ** One whole attempt, as a function *)

(** The state after the host has started [op]. *)
Definition started (op : Operator) (r : Run) : Run :=
  mkRun (<[task_id op := Running]> (states r))
        (<[task_id op := S (tries r !!! task_id op)]> (tries r))
        (world r).

(** Start [op], run it, and record how it ended. *)
Definition attempt (op : Operator) (r : Run) : Run :=
  let r1 := started op r in
  match execute op (world r1) with
  | (Ok _, w') =>
      mkRun (<[task_id op := Succeeded]> (states r1)) (tries r1) w'
  | (Raise _, w') =>
      mkRun (<[task_id op := after_failure op r1]> (states r1)) (tries r1) w'
  end.

(** Whether the host may start task [t] now. *)
Definition startable (d : DAG) (r : Run) (t : string) : bool :=
  (bool_decide (states r !!! t = Queued) ||
   bool_decide (states r !!! t = Retrying)) &&
  forallb (fun u => bool_decide (states r !!! u = Succeeded)) (upstream d t).

(** The three operators of the workflow, by name. *)
Definition extract_task : Operator := mkOperator "extract" extract 2.
Definition transform_task : Operator := mkOperator "transform" transform 2.
Definition load_task : Operator := mkOperator "load" load 2.

(** ** The training split of a partition, as the source gives it *)

Definition train_split_of (name : string) (s : SrcState)
    : Result pyobj * SrcState :=
  match TrialOutcome name s with
  | (Ok data, s1) =>
      match get_split data s1 with
      | (Ok split, s2) => (getitem split "train", s2)
      | (Raise e, s2) => (Raise e, s2)
      end
  | (Raise e, s1) => (Raise e, s1)
  end.

(** The order of the stages along the chain. *)
Definition rank (t : string) : nat :=
  if decide (t = "extract") then 0
  else if decide (t = "transform") then 1
  else if decide (t = "load") then 2
  else 3.

(** ** State invariants of the host *)

(** Whatever has left the queue has all its predecessors succeeded. *)
Definition ordered (d : DAG) (r : Run) : Prop :=
  ∀ u t, edge d u t → states r !!! t ≠ Queued → states r !!! u = Succeeded.

(** No task is attempted more than [n] + 1 times, and one that may still
    start has been attempted at most [n] times. *)
Definition attempts_bounded (n : nat) (r : Run) : Prop :=
  ∀ t, tries r !!! t ≤ S n ∧
       (states r !!! t = Queued ∨ states r !!! t = Retrying → tries r !!! t ≤ n).

(** ** The stages back to back *)

(** What an execution from [w] to [w'] has added to the trace. *)
Definition added (w w' : World) : list (event Frame) :=
  drop (length (log w)) (log w').

(** The three callables in the order of the chain, each under the context
    of its own task, stopping at the first one that raises. *)
Definition run_in_order : M pyval :=
  let* _ := extract (context "extract") in
  let* _ := transform (context "transform") in
  load (context "load").

End Pipeline.

(** ** Concrete worlds and runs over the small sources *)

Module DemoRuns.
Import Demo.

(** A run that has just been created. *)
Definition w_fresh : World string nat := mkWorld ∅ [] 0.

(** The world once extract has published the training split of "phase1". *)
Definition w_published : World string nat :=
  mkWorld {[ ("extract", "order_data") := PyFrame "phase1/train" ]}
          [EvPush "extract" "order_data" (PyFrame "phase1/train")] 1.

(** Two worlds that agree on ("transform", "total_order_value") and on
    nothing else. *)
Definition w_left : World string nat :=
  mkWorld (<[("transform", "total_order_value") := PyFrame "t"]>
             {[ ("extract", "order_data") := PyFrame "a" ]})
          [] 0.

Definition w_right : World string nat :=
  mkWorld {[ ("transform", "total_order_value") := PyFrame "t" ]}
          [EvPrint PyNone] 7.

(** The run in which each stage succeeds at its first attempt. *)
Definition full_run : @Run string nat :=
  attempt load_task
    (attempt transform_task
       (attempt (extract_task (src := named_source)) (new_run 0))).

(** The run against the source that cannot be reached: extract is attempted
    three times and fails each time. *)
Definition offline_run : @Run string nat :=
  attempt (extract_task (src := offline_source))
    (attempt (extract_task (src := offline_source))
       (attempt (extract_task (src := offline_source)) (new_run 0))).

End DemoRuns.

(** * Properties *)

Section Properties.

Context {Frame SrcState DataLoader Obj : Type}.
Context {src : DatasetSource Obj SrcState DataLoader}.
Context {backend : XComBackend Obj Frame}.

Abbreviation pyobj := (pyval Obj).
Abbreviation pyval := (pyval Frame).
Abbreviation kwval := (kwval Frame).
Abbreviation World := (World Frame SrcState).
Abbreviation Run := (@Run Frame SrcState).
Abbreviation DAG := (@DAG Frame SrcState).

(** ** What each callable does, step by step *)

Lemma extract_ok (kwargs : gmap string kwval) (w : World) v w' :
  extract kwargs w = (Ok v, w') ->
  ∃ me data s1 split s2 x y,
    kwargs !! "ti" = Some (KTi me) ∧
    TrialOutcome "phase1" (env w) = (Ok data, s1) ∧
    get_split data s1 = (Ok split, s2) ∧
    getitem split "train" = Ok x ∧
    serialize_object x = Ok y ∧
    v = PyNone ∧
    w' = mkWorld (<[(me, "order_data") := y]> (xcom w))
                 (log w ++ [EvPush me "order_data" y]) s2.
Proof.
  unfold extract, bind, kw_getitem, call_TrialOutcome, call_get_split, lift, ret.
  destruct (kwargs !! "ti") as [ti|] eqn:Hti; simpl; [|discriminate].
  destruct (TrialOutcome "phase1" (env w)) as [[data|e] s1] eqn:Hd; simpl;
    [|discriminate].
  destruct (get_split data s1) as [[split|e] s2] eqn:Hs; simpl; [|discriminate].
  destruct (getitem split "train") as [x|e] eqn:Hx; simpl; [|discriminate].
  destruct ti as [me|o]; simpl; [|discriminate].
  unfold serialize_value, object_serializable.
  destruct (serialize_object x) as [y|e] eqn:Hy; [|discriminate].
  intros [= <- <-]. by exists me, data, s1, split, s2, x, y.
Qed.

Lemma extract_raise (kwargs : gmap string kwval) (w : World) e w' :
  extract kwargs w = (Raise e, w') ->
  xcom w' = xcom w ∧ log w' = log w.
Proof.
  unfold extract, bind, kw_getitem, call_TrialOutcome, call_get_split, lift, ret.
  destruct (kwargs !! "ti") as [ti|]; simpl; [|by intros [= <- <-]].
  destruct (TrialOutcome "phase1" (env w)) as [[data|e1] s1]; simpl;
    [|by intros [= <- <-]].
  destruct (get_split data s1) as [[split|e2] s2]; simpl; [|by intros [= <- <-]].
  destruct (getitem split "train") as [x|e3]; simpl; [|by intros [= <- <-]].
  destruct ti as [me|o]; simpl; [|by intros [= <- <-]].
  unfold serialize_value, object_serializable.
  destruct (serialize_object x) as [y|e4]; [discriminate | by intros [= <- <-]].
Qed.

Lemma transform_run (me : string) (w : World) :
  transform (context me) w =
    let x := default PyNone (xcom w !! ("extract", "order_data")) in
    (Ok PyNone,
     mkWorld (<[(me, "total_order_value") := x]> (xcom w))
             (log w ++ [EvPull "extract" "order_data"; EvPrint x;
                        EvPush me "total_order_value" x])
             (env w)).
Proof.
  unfold transform, bind, kw_getitem, context.
  rewrite lookup_singleton_eq. simpl. by rewrite <- !app_assoc.
Qed.

Lemma load_run (me : string) (w : World) :
  load (context me) w =
    let x := default PyNone (xcom w !! ("transform", "total_order_value")) in
    (Ok PyNone,
     mkWorld (xcom w)
             (log w ++ [EvPull "transform" "total_order_value"; EvPrint x])
             (env w)).
Proof.
  unfold load, bind, kw_getitem, context.
  rewrite lookup_singleton_eq. simpl. by rewrite <- !app_assoc.
Qed.

Lemma pushes_app (l1 l2 : list (event Frame)) : pushes (l1 ++ l2) = pushes l1 ++ pushes l2.
Proof.
  induction l1 as [|[t k v|t k|v] l1 IH]; simpl; [done | | |];
    by rewrite ?IH.
Qed.

Lemma pulls_app (l1 l2 : list (event Frame)) : pulls (l1 ++ l2) = pulls l1 ++ pulls l2.
Proof.
  induction l1 as [|[t k v|t k|v] l1 IH]; simpl; [done | | |];
    by rewrite ?IH.
Qed.

Lemma printed_app (l1 l2 : list (event Frame)) : printed (l1 ++ l2) = printed l1 ++ printed l2.
Proof.
  induction l1 as [|[t k v|t k|v] l1 IH]; simpl; [done | | |];
    by rewrite ?IH.
Qed.

(** ** The declared workflow, spelled out *)

Lemma dag_tasks :
  task_dict dag =
    [mkOperator "extract" extract 2; mkOperator "transform" transform 2;
     mkOperator "load" load 2].
Proof. reflexivity. Qed.

Lemma dag_edges :
  edges dag = [("extract", "transform"); ("transform", "load")].
Proof. reflexivity. Qed.

Lemma dag_task_cases (op : @Operator Frame SrcState) :
  op ∈ task_dict dag ->
  op = mkOperator "extract" extract 2 ∨
  op = mkOperator "transform" transform 2 ∨
  op = mkOperator "load" load 2.
Proof.
  rewrite dag_tasks. rewrite !elem_of_cons, elem_of_nil. tauto.
Qed.

Lemma elem_of_upstream (d : DAG) u t : u ∈ upstream d t ↔ edge d u t.
Proof.
  unfold upstream, edge. rewrite list_elem_of_fmap. split.
  - intros [[u' t'] [-> [Ht Hin]%list_elem_of_filter]]. simpl in *. by subst.
  - intros Hin. exists (u, t). split; [done|]. by apply list_elem_of_filter.
Qed.

Lemma elem_of_downstream (d : DAG) u t : t ∈ downstream d u ↔ edge d u t.
Proof.
  unfold downstream, edge. rewrite list_elem_of_fmap. split.
  - intros [[u' t'] [-> [Ht Hin]%list_elem_of_filter]]. simpl in *. by subst.
  - intros Hin. exists (u, t). split; [done|]. by apply list_elem_of_filter.
Qed.

(** ** Ordering: a state invariant of the host, for any workflow *)

Lemma ordered_new_run (d : DAG) (s : SrcState) : ordered d (new_run s).
Proof.
  intros u t _ Hq. contradict Hq. unfold new_run; simpl.
  by rewrite lookup_total_alt, lookup_empty.
Qed.

Lemma ordered_step (d : DAG) (r r' : Run) : step d r r' -> ordered d r -> ordered d r'.
Proof.
  intros Hstep Hord.
  destruct Hstep as [op r Hop Hst Hready|op r v w' Hop Hst Hex
                    |op r e w' Hop Hst Hex|r s']; intros u t Hedge; simpl.
  - (* start *)
    destruct (decide (task_id op = t)) as [<-|Hne].
    + intros _. destruct (decide (task_id op = u)) as [<-|Hne'].
      * pose proof (Hready _ (proj2 (elem_of_upstream _ _ _) Hedge)) as Hs.
        destruct Hst; congruence.
      * rewrite lookup_total_insert_ne by done.
        apply Hready. by apply elem_of_upstream.
    + rewrite lookup_total_insert_ne by done. intros Hq.
      pose proof (Hord _ _ Hedge Hq) as Hu.
      destruct (decide (task_id op = u)) as [<-|Hne'].
      * destruct Hst; congruence.
      * by rewrite lookup_total_insert_ne.
  - (* success *)
    destruct (decide (task_id op = u)) as [<-|Hne'].
    + intros _. by rewrite lookup_total_insert_eq.
    + rewrite (lookup_total_insert_ne _ _ u) by done.
      destruct (decide (task_id op = t)) as [<-|Hne].
      * intros _. apply (Hord _ _ Hedge). congruence.
      * rewrite lookup_total_insert_ne by done. by apply Hord.
  - (* failure *)
    destruct (decide (task_id op = t)) as [<-|Hne].
    + intros _.
      assert (states r !!! u = Succeeded) as Hu
        by (apply (Hord _ _ Hedge); congruence).
      destruct (decide (task_id op = u)) as [<-|Hne']; [congruence|].
      by rewrite lookup_total_insert_ne.
    + rewrite lookup_total_insert_ne by done. intros Hq.
      pose proof (Hord _ _ Hedge Hq) as Hu.
      destruct (decide (task_id op = u)) as [<-|Hne']; [congruence|].
      by rewrite lookup_total_insert_ne.
  - apply Hord. done.
Qed.

Lemma reachable_ind_inv (d : DAG) (P : Run -> Prop) :
  (∀ s, P (new_run s)) ->
  (∀ r r', reachable d r -> P r -> step d r r' -> P r') ->
  ∀ r, reachable d r -> P r.
Proof.
  intros Hinit Hstep r [s Hrtc].
  revert r Hrtc. apply (rtc_ind_r (R := step d) (fun r => P r)); [apply Hinit|].
  intros r1 r2 Hr1 Hs IH.
  eapply Hstep; [by exists s | exact IH | exact Hs].
Qed.

Lemma ordered_reachable (d : DAG) (r : Run) : reachable d r -> ordered d r.
Proof.
  apply reachable_ind_inv; [apply ordered_new_run|].
  intros r1 r2 _ H1 Hs. by eapply ordered_step.
Qed.

(** ** Attempts: a state invariant of the host, for any workflow *)

Lemma attempts_bounded_step (d : DAG) n (r r' : Run) :
  (∀ op, op ∈ task_dict d → retries op ≤ n) ->
  step d r r' -> attempts_bounded n r -> attempts_bounded n r'.
Proof.
  intros Hn Hstep Hb.
  destruct Hstep as [op r Hop Hst Hready|op r v w' Hop Hst Hex
                    |op r e w' Hop Hst Hex|r s']; intros t; simpl;
    try exact (Hb t); destruct (Hb t) as [Hle Hq].
  - destruct (decide (task_id op = t)) as [<-|Hne].
    + rewrite !lookup_total_insert_eq. split; [|intros [?|?]; discriminate].
      specialize (Hq Hst). lia.
    + by rewrite !lookup_total_insert_ne.
  - destruct (decide (task_id op = t)) as [<-|Hne].
    + rewrite lookup_total_insert_eq. split; [done|intros [?|?]; discriminate].
    + by rewrite lookup_total_insert_ne.
  - destruct (decide (task_id op = t)) as [<-|Hne].
    + rewrite lookup_total_insert_eq. split; [done|].
      unfold after_failure. case_decide as Hd; [|intros [?|?]; discriminate].
      intros _. specialize (Hn _ Hop). lia.
    + by rewrite lookup_total_insert_ne.
Qed.

Lemma attempts_bounded_reachable (d : DAG) n (r : Run) :
  (∀ op, op ∈ task_dict d → retries op ≤ n) ->
  reachable d r -> attempts_bounded n r.
Proof.
  intros Hn. apply reachable_ind_inv.
  - intros s t. unfold new_run; simpl.
    rewrite lookup_total_alt, lookup_empty. simpl. split; [lia|intros _; lia].
  - intros r1 r2 _ H1 Hs. by eapply attempts_bounded_step.
Qed.

(** ** Running the three operators of the workflow *)

Lemma execute_none (op : @Operator Frame SrcState) w w1 :
  python_callable op (context (task_id op)) w = (Ok PyNone, w1) ->
  execute op w = (Ok PyNone, w1).
Proof. intros H. unfold execute, bind. by rewrite H. Qed.

Lemma execute_raise (op : @Operator Frame SrcState) w e w1 :
  python_callable op (context (task_id op)) w = (Raise e, w1) ->
  execute op w = (Raise e, w1).
Proof. intros H. unfold execute, bind. by rewrite H. Qed.

Lemma execute_extract (n : nat) (w : World) :
  (∃ x s',
     execute (mkOperator "extract" extract n) w =
       (Ok PyNone,
        mkWorld (<[("extract", "order_data") := x]> (xcom w))
                (log w ++ [EvPush "extract" "order_data" x]) s')) ∨
  (∃ e w', execute (mkOperator "extract" extract n) w = (Raise e, w') ∧
           xcom w' = xcom w ∧ log w' = log w).
Proof.
  destruct (extract (context "extract") w) as [[v|e] w1] eqn:Hx.
  - left. apply extract_ok in Hx as Hx'.
    destruct Hx'
      as (me & data & s1 & split & s2 & x & y & Hme & _ & _ & _ & _ & -> & ->).
    unfold context in Hme. rewrite lookup_singleton_eq in Hme.
    injection Hme as <-. exists y, s2. by apply execute_none.
  - right. exists e, w1. split; [by apply execute_raise|].
    by eapply extract_raise.
Qed.

Lemma execute_transform (n : nat) (w : World) :
  execute (mkOperator "transform" transform n) w =
    let x := default PyNone (xcom w !! ("extract", "order_data")) in
    (Ok PyNone,
     mkWorld (<[("transform", "total_order_value") := x]> (xcom w))
             (log w ++ [EvPull "extract" "order_data"; EvPrint x;
                        EvPush "transform" "total_order_value" x])
             (env w)).
Proof. apply execute_none. simpl. apply transform_run. Qed.

Lemma execute_load (n : nat) (w : World) :
  execute (mkOperator "load" load n) w =
    let x := default PyNone (xcom w !! ("transform", "total_order_value")) in
    (Ok PyNone,
     mkWorld (xcom w)
             (log w ++ [EvPull "transform" "total_order_value"; EvPrint x])
             (env w)).
Proof. apply execute_none. simpl. apply load_run. Qed.

(** ** The exchange store and the trace of a run of this workflow *)

Lemma done_insert_eq st t s :
  done (<[t := s]> st) t = bool_decide (s = Succeeded).
Proof. unfold done. by rewrite lookup_total_insert_eq. Qed.

Lemma done_insert_ne st t t' s :
  t ≠ t' -> done (<[t := s]> st) t' = done st t'.
Proof. intros Hne. unfold done. by rewrite lookup_total_insert_ne. Qed.

Lemma done_false st t : st !!! t ≠ Succeeded -> done st t = false.
Proof. intros H. unfold done. by rewrite bool_decide_eq_false. Qed.

Lemma done_true st t : st !!! t = Succeeded -> done st t = true.
Proof. intros H. unfold done. by rewrite bool_decide_eq_true. Qed.

Lemma edge_extract_transform : edge dag "extract" "transform".
Proof. unfold edge. rewrite dag_edges. apply elem_of_cons. by left. Qed.

Lemma edge_transform_load : edge dag "transform" "load".
Proof.
  unfold edge. rewrite dag_edges. apply elem_of_cons. right.
  apply elem_of_cons. by left.
Qed.

Lemma after_failure_not_succeeded (op : @Operator Frame SrcState) (r : Run) : after_failure op r ≠ Succeeded.
Proof. unfold after_failure. by case_decide. Qed.

(** Replacing the state of a task that has not succeeded by another state
    that is not success changes no [done] flag. *)
Lemma done_insert_same st t s t' :
  st !!! t ≠ Succeeded -> s ≠ Succeeded ->
  done (<[t := s]> st) t' = done st t'.
Proof.
  intros H1 H2. destruct (decide (t = t')) as [<-|Hne].
  - rewrite done_insert_eq, (done_false st t) by done.
    by rewrite bool_decide_eq_false.
  - by apply done_insert_ne.
Qed.

Lemma exchange_new_run (s : SrcState) : exchange (new_run s : Run).
Proof. exists PyNone. by split. Qed.

Lemma exchange_step (r r' : Run) :
  step dag r r' -> ordered dag r -> exchange r -> exchange r'.
Proof.
  intros Hstep Hord (v & Hlog & Hx).
  pose proof (Hord _ _ edge_extract_transform) as Het.
  pose proof (Hord _ _ edge_transform_load) as Htl.
  destruct Hstep as [op r Hop Hst Hready|op r v' w' Hop Hst Hex
                    |op r e w' Hop Hst Hex|r s']; unfold exchange; simpl.
  - (* start: nothing runs *)
    exists v. rewrite !done_insert_same; try done; destruct Hst; congruence.
  - (* an attempt succeeds *)
    assert (states r !!! task_id op ≠ Succeeded) as Hns by congruence.
    destruct (dag_task_cases _ Hop) as [->|[->| ->]]; simpl in *.
    + assert (done (states r) "extract" = false) as De by by apply done_false.
      assert (done (states r) "transform" = false) as Dt.
      { apply done_false. intros Hs. rewrite Het in Hst; congruence. }
      assert (done (states r) "load" = false) as Dl.
      { apply done_false. intros Hs.
        assert (done (states r) "transform" = true) as Dt'
          by (apply done_true, Htl; congruence).
        congruence. }
      destruct (execute_extract 2 (world r)) as [(x & s' & Hx')|(e & w1 & Hx' & _)];
        [|congruence].
      rewrite Hx' in Hex. injection Hex as _ <-. exists x. simpl.
      rewrite done_insert_eq, !done_insert_ne by done.
      rewrite Hlog, Hx, De, Dt, Dl. simpl. split; [done|].
      by rewrite insert_empty.
    + assert (done (states r) "transform" = false) as Dt by by apply done_false.
      assert (done (states r) "extract" = true) as De.
      { apply done_true, Het. congruence. }
      assert (done (states r) "load" = false) as Dl.
      { apply done_false. intros Hs. rewrite Htl in Hst; congruence. }
      rewrite execute_transform in Hex. injection Hex as _ <-. exists v. simpl.
      rewrite done_insert_eq, !done_insert_ne by done.
      rewrite Hlog, Hx, De, Dt, Dl. simpl.
      by rewrite lookup_singleton_eq.
    + assert (done (states r) "load" = false) as Dl by by apply done_false.
      assert (done (states r) "transform" = true) as Dt.
      { apply done_true, Htl. congruence. }
      assert (done (states r) "extract" = true) as De.
      { apply done_true, Het. unfold done in Dt.
        apply bool_decide_eq_true in Dt. congruence. }
      rewrite execute_load in Hex. injection Hex as _ <-. exists v. simpl.
      rewrite done_insert_eq, !done_insert_ne by done.
      rewrite Hlog, Hx, De, Dt, Dl. simpl.
      by rewrite lookup_insert_eq.
  - (* an attempt fails: only extract can *)
    assert (states r !!! task_id op ≠ Succeeded) as Hns by congruence.
    pose proof (after_failure_not_succeeded op r) as Haf.
    exists v. rewrite !done_insert_same by done.
    destruct (dag_task_cases _ Hop) as [->|[->| ->]]; simpl in *.
    + destruct (execute_extract 2 (world r)) as [(x & s' & Hx')|(e' & w1 & Hx' & Hxc & Hlg)];
        [congruence|].
      rewrite Hx' in Hex. injection Hex as _ <-. by rewrite Hxc, Hlg.
    + by rewrite execute_transform in Hex.
    + by rewrite execute_load in Hex.
  - by exists v.
Qed.

Lemma exchange_reachable (r : Run) : reachable dag r -> exchange r.
Proof.
  apply reachable_ind_inv; [apply exchange_new_run|].
  intros r1 r2 Hr H1 Hs. eapply exchange_step; [done| |done].
  by apply ordered_reachable.
Qed.

(** ** Whole attempts stay within the host's steps *)

Lemma startable_spec (d : DAG) (r : Run) t :
  startable d r t = true ->
  (states r !!! t = Queued ∨ states r !!! t = Retrying) ∧ ready d r t.
Proof.
  unfold startable. intros [Hs Hr]%andb_true_iff. split.
  - apply orb_true_iff in Hs as [H|H]; apply bool_decide_eq_true in H; auto.
  - intros u Hu. rewrite forallb_forall in Hr.
    apply list_elem_of_In in Hu. apply Hr in Hu.
    by apply bool_decide_eq_true in Hu.
Qed.

Lemma attempt_reachable (d : DAG) op (r : Run) :
  reachable d r -> op ∈ task_dict d -> startable d r (task_id op) = true ->
  reachable d (attempt op r).
Proof.
  intros [s Hr] Hop [Hst Hready]%startable_spec. exists s.
  assert (rtc (step d) (new_run s) (started op r)) as Hr1.
  { eapply rtc_r; [exact Hr|]. by apply step_start. }
  unfold attempt.
  destruct (execute op (world (started op r))) as [[v|e] w'] eqn:Hex.
  - eapply rtc_r; [exact Hr1|]. eapply step_success; [done| |exact Hex].
    simpl. by rewrite lookup_total_insert_eq.
  - eapply rtc_r; [exact Hr1|]. eapply step_failure; [done| |exact Hex].
    simpl. by rewrite lookup_total_insert_eq.
Qed.

Lemma new_run_reachable (d : DAG) (s : SrcState) : reachable d (new_run s).
Proof. by exists s. Qed.

Lemma extract_task_in : extract_task ∈ task_dict dag.
Proof. rewrite dag_tasks. apply elem_of_cons. by left. Qed.

Lemma transform_task_in : transform_task ∈ task_dict dag.
Proof. rewrite dag_tasks. apply elem_of_cons. right. apply elem_of_cons. by left. Qed.

Lemma load_task_in : load_task ∈ task_dict dag.
Proof.
  rewrite dag_tasks. do 2 (apply elem_of_cons; right).
  apply elem_of_cons. by left.
Qed.

(** ** The chain has no cycle *)

Lemma edge_rank u t : edge dag u t -> rank u < rank t.
Proof.
  unfold edge. rewrite dag_edges, !elem_of_cons, elem_of_nil.
  intros [[= -> ->]|[[= -> ->]|[]]]; vm_compute; lia.
Qed.

Lemma tc_edge_rank u t : tc (edge dag) u t -> rank u < rank t.
Proof.
  induction 1 as [u t H|u m t H _ IH].
  - by apply edge_rank.
  - apply edge_rank in H. lia.
Qed.

Lemma dag_acyclic t : ¬ tc (edge dag) t t.
Proof. intros H%tc_edge_rank. lia. Qed.

(** ** The claims of the specification *)

(** C1. Whenever the exchange store holds a value [v] under
    ("extract", "order_data"), the transform callable, run by a task
    instance [me], succeeds, reads that entry, prints [v] and files the very
    same [v] under ([me], "total_order_value"); nothing else of the world
    enters what it publishes. *)
Theorem transform_republishes_order_data
    (kwargs : gmap string kwval) (me : string) (w : World) (v : pyval) :
  kwargs !! "ti" = Some (KTi me) ->
  xcom w !! ("extract", "order_data") = Some v ->
  transform kwargs w =
    (Ok PyNone,
     mkWorld (<[(me, "total_order_value") := v]> (xcom w))
             (log w ++ [EvPull "extract" "order_data"; EvPrint v;
                        EvPush me "total_order_value" v])
             (env w)).
Proof.
  intros Hti Hv. unfold transform, bind, kw_getitem. rewrite Hti. simpl.
  rewrite Hv. simpl. by rewrite <- !app_assoc.
Qed.

(** The same over whole runs of the workflow: once transform has succeeded,
    both keys hold one and the same value. *)
Lemma run_transform_republishes (r : Run) :
  reachable dag r -> states r !!! "transform" = Succeeded ->
  ∃ v, xcom (world r) !! ("extract", "order_data") = Some v ∧
       xcom (world r) !! ("transform", "total_order_value") = Some v.
Proof.
  intros Hr Ht. destruct (exchange_reachable _ Hr) as (v & _ & Hx).
  pose proof (ordered_reachable _ _ Hr _ _ edge_extract_transform) as He.
  rewrite (done_true _ _ Ht), (done_true _ "extract") in Hx
    by (apply He; congruence).
  exists v. rewrite Hx. simpl. split.
  - rewrite lookup_insert_ne by done. apply lookup_singleton_eq.
  - apply lookup_insert_eq.
Qed.

(** C2. The declared dependency graph is the chain
    extract -> transform -> load and nothing else: each stage has at most
    one predecessor and one successor, and no stage reaches itself.  In
    every state a run can reach, a stage that has left the queue has all its
    predecessors succeeded: transform has not started unless extract
    succeeded, load has not started unless transform (and so extract)
    succeeded. *)
Theorem chain_extract_transform_load (r : Run) :
  reachable dag r ->
  edges dag = [("extract", "transform"); ("transform", "load")] ∧
  (upstream dag "extract" = [] ∧ upstream dag "transform" = ["extract"] ∧
   upstream dag "load" = ["transform"]) ∧
  (downstream dag "extract" = ["transform"] ∧
   downstream dag "transform" = ["load"] ∧ downstream dag "load" = []) ∧
  (∀ t, ¬ tc (edge dag) t t) ∧
  ordered dag r ∧
  (states r !!! "transform" ≠ Queued → states r !!! "extract" = Succeeded) ∧
  (states r !!! "load" ≠ Queued →
   states r !!! "transform" = Succeeded ∧ states r !!! "extract" = Succeeded).
Proof.
  intros Hr. pose proof (ordered_reachable _ _ Hr) as Hord.
  split; [reflexivity|]. split; [by vm_compute|]. split; [by vm_compute|].
  split; [exact dag_acyclic|]. split; [exact Hord|].
  split; [exact (Hord _ _ edge_extract_transform)|].
  intros Hl. pose proof (Hord _ _ edge_transform_load Hl) as Ht.
  split; [done|]. apply (Hord _ _ edge_extract_transform). congruence.
Qed.

(** C3. The extract callable reads nothing from the exchange store; it
    asks the dataset source for the partition of phase 1, which line 63
    names 'phase1', takes the 'train' entry of its split, and hands it to
    the host under "order_data".  Whenever the source delivers that entry
    and the host's serialiser accepts it, extract succeeds, the store
    changes at ([me], "order_data") and nowhere else, and the trace grows by
    that one push and by nothing else: no pull, no other write. *)
Theorem extract_publishes_train_split
    (kwargs : gmap string kwval) (me : string) (w : World) (x : pyobj)
    (y : pyval) (s' : SrcState) :
  kwargs !! "ti" = Some (KTi me) ->
  train_split_of "phase1" (env w) = (Ok x, s') ->
  serialize_object x = Ok y ->
  extract kwargs w =
    (Ok PyNone,
     mkWorld (<[(me, "order_data") := y]> (xcom w))
             (log w ++ [EvPush me "order_data" y]) s').
Proof.
  intros Hti Hx Hy. unfold train_split_of in Hx.
  unfold extract, bind, kw_getitem, call_TrialOutcome, call_get_split, lift.
  rewrite Hti. simpl.
  destruct (TrialOutcome "phase1" (env w)) as [[data|e] s1]; simpl;
    [|discriminate].
  destruct (get_split data s1) as [[split|e] s2]; simpl; [|discriminate].
  injection Hx as -> ->. unfold serialize_value, object_serializable.
  by rewrite Hy.
Qed.

(** Whatever the outcome, extract reads no key of the exchange store. *)
Lemma extract_never_pulls (kwargs : gmap string kwval) (w : World) :
  pulls (log (extract kwargs w).2) = pulls (log w).
Proof.
  destruct (extract kwargs w) as [[v|e] w'] eqn:Hx; simpl.
  - apply extract_ok in Hx
      as (me & ? & ? & ? & s2 & x & y & _ & _ & _ & _ & _ & _ & ->).
    simpl. rewrite pulls_app. simpl. by rewrite app_nil_r.
  - apply extract_raise in Hx as [_ ->]. done.
Qed.

(** C4 (amended: a read of an unpublished key yields [None] and the stage
    goes on). With nothing filed under ("extract", "order_data") transform
    completes, prints [None] and republishes [None]; with nothing filed
    under ("transform", "total_order_value") load completes and prints
    [None].  Neither raises, and the host sees both attempts succeed. *)
Theorem missing_upstream_value_reads_as_none (w1 w2 : World) :
  xcom w1 !! ("extract", "order_data") = None ->
  xcom w2 !! ("transform", "total_order_value") = None ->
  (transform (context "transform") w1 =
     (Ok PyNone,
      mkWorld (<[("transform", "total_order_value") := PyNone]> (xcom w1))
              (log w1 ++ [EvPull "extract" "order_data"; EvPrint PyNone;
                          EvPush "transform" "total_order_value" PyNone])
              (env w1)) ∧
   is_ok (execute transform_task w1).1 = true) ∧
  (load (context "load") w2 =
     (Ok PyNone,
      mkWorld (xcom w2)
              (log w2 ++ [EvPull "transform" "total_order_value";
                          EvPrint PyNone])
              (env w2)) ∧
   is_ok (execute load_task w2).1 = true).
Proof.
  intros H1 H2. split; split.
  - rewrite transform_run, H1. done.
  - unfold transform_task. by rewrite execute_transform.
  - rewrite load_run, H2. done.
  - unfold load_task. by rewrite execute_load.
Qed.

(** One execution of extract adds one push, under "order_data", when it
    succeeds and none when it raises; likewise transform under
    "total_order_value". *)
Lemma extract_pushes (kwargs : gmap string kwval) (w : World) :
  pushes (log (extract kwargs w).2) =
    pushes (log w) ++
    match (extract kwargs w).1, kwargs !! "ti" with
    | Ok _, Some (KTi me) => [(me, "order_data")]
    | _, _ => []
    end.
Proof.
  destruct (extract kwargs w) as [[v|e] w'] eqn:Hx; simpl.
  - apply extract_ok in Hx
      as (me & ? & ? & ? & s2 & x & y & -> & _ & _ & _ & _ & _ & ->).
    simpl. by rewrite pushes_app.
  - apply extract_raise in Hx as [_ ->]. by rewrite app_nil_r.
Qed.

Lemma transform_pushes (kwargs : gmap string kwval) (w : World) :
  pushes (log (transform kwargs w).2) =
    pushes (log w) ++
    match (transform kwargs w).1, kwargs !! "ti" with
    | Ok _, Some (KTi me) => [(me, "total_order_value")]
    | _, _ => []
    end.
Proof.
  unfold transform, bind, kw_getitem.
  destruct (kwargs !! "ti") as [[me|o]|]; simpl; rewrite ?app_nil_r; try done.
  rewrite <- !app_assoc, pushes_app. done.
Qed.

(** C5 (amended: at most once, and exactly once when the stage succeeds).
    In every state a run of the workflow can reach, the keys written so far
    are: ("extract", "order_data") once if extract has succeeded and not at
    all otherwise, followed by ("transform", "total_order_value") once if
    transform has succeeded and not at all otherwise.  So no key is ever
    written twice, failed attempts included.  Stage by stage: one execution
    of extract, or of transform, pushes its key once when it completes and
    pushes nothing when it raises. *)
Theorem each_key_written_once_on_success (r : Run) (w : World) :
  reachable dag r ->
  (pushes (log (world r)) =
     (if done (states r) "extract" then [("extract", "order_data")] else []) ++
     (if done (states r) "transform"
      then [("transform", "total_order_value")] else []) ∧
   NoDup (pushes (log (world r)))) ∧
  pushes (log (extract (context "extract") w).2) =
    pushes (log w) ++
    (if is_ok (extract (context "extract") w).1
     then [("extract", "order_data")] else []) ∧
  pushes (log (transform (context "transform") w).2) =
    pushes (log w) ++ [("transform", "total_order_value")].
Proof.
  intros Hr. split; [|split].
  - destruct (exchange_reachable _ Hr) as (v & Hlog & _).
    rewrite Hlog. unfold expected_log. rewrite !pushes_app.
    destruct (done (states r) "extract"), (done (states r) "transform"),
      (done (states r) "load"); simpl; (split; [done|]);
      first [ apply NoDup_nil_2 | apply NoDup_singleton
            | apply NoDup_cons_2; [|apply NoDup_singleton] ].
    all: by rewrite list_elem_of_singleton.
  - rewrite extract_pushes. unfold context. rewrite lookup_singleton_eq.
    by destruct (extract _ w).1.
  - rewrite transform_pushes, transform_run. unfold context.
    by rewrite lookup_singleton_eq.
Qed.

(** C6. The workflow is declared under the id "dag_clinical_trial", with
    [retries = 2] as the default argument, which each of the three operators
    takes over; it has no schedule ([None]), [catchup] is off, and its one
    tag is "example". *)
Theorem dag_registration :
  dag_id dag = "dag_clinical_trial" ∧
  default_args dag = [("retries", 2)] ∧
  (fun op => (task_id op, retries op)) <$> task_dict dag =
    [("extract", 2); ("transform", 2); ("load", 2)] ∧
  schedule dag = None ∧
  catchup dag = false ∧
  tags dag = ["example"].
Proof. repeat split. Qed.

(** What the budget means for the host: no stage is attempted more than
    three times (two retries), whatever the run. *)
Lemma retry_budget_respected (r : Run) (t : string) :
  reachable dag r ->
  tries r !!! t ≤ 3 ∧
  (states r !!! t = Queued ∨ states r !!! t = Retrying → tries r !!! t ≤ 2).
Proof.
  intros Hr. apply (attempts_bounded_reachable dag 2); [|done].
  intros op [->|[->| ->]]%dag_task_cases; simpl; lia.
Qed.

(** C7. If what the dataset source answers depends on the partition name
    alone and not on the state the source is in, then any two executions of
    extract, from any two worlds, end the same way and publish the same
    events: either both fail with the same exception and publish nothing, or
    both push one and the same value under "order_data". *)
Theorem extract_idempotent
    (kwargs : gmap string kwval) (w1 w2 : World) :
  (∀ name s1 s2, (TrialOutcome name s1).1 = (TrialOutcome name s2).1) ->
  (∀ data s1 s2, (get_split data s1).1 = (get_split data s2).1) ->
  (extract kwargs w1).1 = (extract kwargs w2).1 ∧
  ∃ evs,
    log (extract kwargs w1).2 = log w1 ++ evs ∧
    log (extract kwargs w2).2 = log w2 ++ evs ∧
    match (extract kwargs w1).1 with
    | Ok _ =>
        ∃ me x, evs = [EvPush me "order_data" x] ∧
          xcom (extract kwargs w1).2 !! (me, "order_data") = Some x ∧
          xcom (extract kwargs w2).2 !! (me, "order_data") = Some x
    | Raise _ => evs = []
    end.
Proof.
  intros Hload Hsplit.
  unfold extract, bind, kw_getitem, call_TrialOutcome, call_get_split, lift.
  destruct (kwargs !! "ti") as [ti|]; simpl.
  2:{ split; [done|]. exists []. by rewrite !app_nil_r. }
  pose proof (Hload "phase1" (env w1) (env w2)) as Hl.
  destruct (TrialOutcome "phase1" (env w1)) as [r1 s1],
           (TrialOutcome "phase1" (env w2)) as [r2 s2].
  simpl in Hl. subst r2. destruct r1 as [data|e]; simpl.
  2:{ split; [done|]. exists []. by rewrite !app_nil_r. }
  pose proof (Hsplit data s1 s2) as Hs.
  destruct (get_split data s1) as [q1 t1], (get_split data s2) as [q2 t2].
  simpl in Hs. subst q2. destruct q1 as [split|e]; simpl.
  2:{ split; [done|]. exists []. by rewrite !app_nil_r. }
  destruct (getitem split "train") as [x|e]; simpl.
  2:{ split; [done|]. exists []. by rewrite !app_nil_r. }
  destruct ti as [me|o]; simpl.
  2:{ split; [done|]. exists []. by rewrite !app_nil_r. }
  unfold serialize_value, object_serializable.
  destruct (serialize_object x) as [y|e]; simpl.
  2:{ split; [done|]. exists []. by rewrite !app_nil_r. }
  split; [done|]. exists [EvPush me "order_data" y].
  split; [done|]. split; [done|]. exists me, y.
  by rewrite !lookup_insert_eq.
Qed.

(** C8. The load callable reads ("transform", "total_order_value"), prints
    what it read, and writes nothing: whatever the keyword arguments and the
    world, the exchange store after load is the store before it and no push
    is added to the trace; the host files no return value for it either.
    Load has no successor in the workflow. *)
Theorem load_leaves_store_unchanged (kwargs : gmap string kwval) (w : World) :
  xcom (load kwargs w).2 = xcom w ∧
  pushes (log (load kwargs w).2) = pushes (log w) ∧
  load (context "load") w =
    (Ok PyNone,
     mkWorld (xcom w)
             (log w ++ [EvPull "transform" "total_order_value";
                        EvPrint (default PyNone
                                   (xcom w !! ("transform", "total_order_value")))])
             (env w)) ∧
  xcom (execute load_task w).2 = xcom w ∧
  downstream dag "load" = [].
Proof.
  split; [|split; [|split; [|split]]].
  - unfold load, bind, kw_getitem.
    destruct (kwargs !! "ti") as [[me|o]|]; done.
  - unfold load, bind, kw_getitem.
    destruct (kwargs !! "ti") as [[me|o]|]; simpl; try done.
    rewrite <- !app_assoc, pushes_app. simpl. by rewrite app_nil_r.
  - apply load_run.
  - unfold load_task. by rewrite execute_load.
  - by vm_compute.
Qed.

(** C9. With nothing filed under ("extract", "order_data"), transform does
    not raise: the read gives [None], which it prints and files under
    ([me], "total_order_value"). *)
Theorem transform_propagates_none
    (kwargs : gmap string kwval) (me : string) (w : World) :
  kwargs !! "ti" = Some (KTi me) ->
  xcom w !! ("extract", "order_data") = None ->
  transform kwargs w =
    (Ok PyNone,
     mkWorld (<[(me, "total_order_value") := PyNone]> (xcom w))
             (log w ++ [EvPull "extract" "order_data"; EvPrint PyNone;
                        EvPush me "total_order_value" PyNone])
             (env w)).
Proof.
  intros Hti Hv. unfold transform, bind, kw_getitem. rewrite Hti. simpl.
  rewrite Hv. simpl. by rewrite <- !app_assoc.
Qed.

(** C10. What load prints depends on the entry
    ("transform", "total_order_value") alone: two worlds that agree on that
    entry, however they differ elsewhere (other keys, earlier trace, source
    state), make load end the same way and print the same values. *)
Theorem load_output_depends_on_total_only
    (kwargs : gmap string kwval) (w1 w2 : World) :
  xcom w1 !! ("transform", "total_order_value") =
    xcom w2 !! ("transform", "total_order_value") ->
  (load kwargs w1).1 = (load kwargs w2).1 ∧
  ∃ out,
    printed (log (load kwargs w1).2) = printed (log w1) ++ out ∧
    printed (log (load kwargs w2).2) = printed (log w2) ++ out.
Proof.
  intros Heq. unfold load, bind, kw_getitem.
  destruct (kwargs !! "ti") as [[me|o]|]; simpl.
  - split; [done|].
    exists [default PyNone (xcom w1 !! ("transform", "total_order_value"))].
    rewrite <- !app_assoc, !printed_app. simpl. by rewrite Heq.
  - split; [done|]. exists []. by rewrite !app_nil_r.
  - split; [done|]. exists []. by rewrite !app_nil_r.
Qed.

End Properties.

(** * The claims on concrete runs *)

Section Instances.
Import Demo DemoRuns.

Lemma full_run_reachable : reachable (dag (src := named_source)) full_run.
Proof.
  unfold full_run.
  apply attempt_reachable; [|apply load_task_in|by vm_compute].
  apply attempt_reachable; [|apply transform_task_in|by vm_compute].
  apply attempt_reachable; [|apply extract_task_in|by vm_compute].
  apply new_run_reachable.
Qed.

Lemma offline_run_reachable :
  reachable (dag (src := offline_source)) offline_run.
Proof.
  unfold offline_run.
  do 3 (apply attempt_reachable; [|apply extract_task_in|by vm_compute]).
  apply new_run_reachable.
Qed.

Lemma transform_republishes_order_data_witness :
  context "transform" !! "ti" = Some (KTi (Frame := string) "transform") ∧
  xcom w_published !! ("extract", "order_data") = Some (PyFrame "phase1/train") ∧
  transform (context "transform") w_published =
    (Ok PyNone,
     mkWorld (<[("transform", "total_order_value") := PyFrame "phase1/train"]>
                (xcom w_published))
             (log w_published ++
                [EvPull "extract" "order_data"; EvPrint (PyFrame "phase1/train");
                 EvPush "transform" "total_order_value" (PyFrame "phase1/train")])
             (env w_published)).
Proof.
  split; [reflexivity|]. split; [reflexivity|].
  apply (transform_republishes_order_data (context "transform") "transform"
           w_published (PyFrame "phase1/train")); reflexivity.
Defined.

Lemma chain_extract_transform_load_witness :
  reachable (dag (src := named_source)) full_run ∧
  ordered (dag (src := named_source)) full_run ∧
  (states full_run !!! "load" ≠ Queued →
   states full_run !!! "transform" = Succeeded ∧
   states full_run !!! "extract" = Succeeded).
Proof.
  split; [exact full_run_reachable|].
  pose proof (chain_extract_transform_load full_run full_run_reachable) as H.
  split; [apply H|apply H].
Defined.

Lemma extract_publishes_train_split_witness :
  context "extract" !! "ti" = Some (KTi (Frame := string) "extract") ∧
  train_split_of (src := named_source) "phase1" (env w_fresh) =
    (Ok (PyFrame "phase1/train"), 1) ∧
  serialize_object (XComBackend := plain_backend) (PyFrame "phase1/train") =
    Ok (PyFrame "phase1/train") ∧
  extract (src := named_source) (context "extract") w_fresh =
    (Ok PyNone,
     mkWorld (<[("extract", "order_data") := PyFrame "phase1/train"]>
                (xcom w_fresh))
             (log w_fresh ++
                [EvPush "extract" "order_data" (PyFrame "phase1/train")]) 1).
Proof.
  split; [reflexivity|]. split; [reflexivity|]. split; [reflexivity|].
  apply (extract_publishes_train_split (src := named_source)
           (context "extract") "extract" w_fresh (PyFrame "phase1/train")
           (PyFrame "phase1/train") 1);
    reflexivity.
Defined.

(** C4 as stated makes a read of an unpublished key a failure of the stage.
    On a fresh store, where neither key has been published, transform and
    load both complete, as callables and as run by the host. *)
Lemma missing_upstream_value_counterexample :
  xcom w_fresh !! ("extract", "order_data") = None ∧
  xcom w_fresh !! ("transform", "total_order_value") = None ∧
  transform (context "transform") w_fresh =
    (Ok PyNone,
     mkWorld {[ ("transform", "total_order_value") := PyNone ]}
             [EvPull "extract" "order_data"; EvPrint PyNone;
              EvPush "transform" "total_order_value" PyNone] 0) ∧
  load (context "load") w_fresh =
    (Ok PyNone,
     mkWorld ∅ [EvPull "transform" "total_order_value"; EvPrint PyNone] 0) ∧
  is_ok (execute transform_task w_fresh).1 = true ∧
  is_ok (execute load_task w_fresh).1 = true.
Proof. repeat split; reflexivity. Qed.

Lemma missing_upstream_value_reads_as_none_witness :
  xcom w_fresh !! ("extract", "order_data") = None ∧
  xcom w_fresh !! ("transform", "total_order_value") = None ∧
  (transform (context "transform") w_fresh =
     (Ok PyNone,
      mkWorld (<[("transform", "total_order_value") := PyNone]> (xcom w_fresh))
              (log w_fresh ++ [EvPull "extract" "order_data"; EvPrint PyNone;
                               EvPush "transform" "total_order_value" PyNone])
              (env w_fresh)) ∧
   is_ok (execute transform_task w_fresh).1 = true) ∧
  (load (context "load") w_fresh =
     (Ok PyNone,
      mkWorld (xcom w_fresh)
              (log w_fresh ++ [EvPull "transform" "total_order_value";
                               EvPrint PyNone])
              (env w_fresh)) ∧
   is_ok (execute load_task w_fresh).1 = true).
Proof.
  split; [reflexivity|]. split; [reflexivity|].
  apply (missing_upstream_value_reads_as_none w_fresh w_fresh); reflexivity.
Defined.

(** C5 as stated has extract publish exactly once in every run.  Against
    the source that cannot be reached, extract raises before it pushes
    anything; the run ends with extract failed after three attempts, nothing
    can start any more, and no key has been written at all. *)
Lemma each_key_written_once_counterexample :
  extract (src := offline_source) (context "extract") w_fresh =
    (Raise (LibraryError "dataset unavailable"), w_fresh) ∧
  reachable (dag (src := offline_source)) offline_run ∧
  states offline_run !!! "extract" = Failed ∧
  tries offline_run !!! "extract" = 3 ∧
  startable (dag (src := offline_source)) offline_run "extract" = false ∧
  startable (dag (src := offline_source)) offline_run "transform" = false ∧
  startable (dag (src := offline_source)) offline_run "load" = false ∧
  pushes (log (world offline_run)) = [] ∧
  length (filter (fun k => k = ("extract", "order_data"))
                 (pushes (log (world offline_run)))) ≠ 1.
Proof.
  split; [reflexivity|]. split; [exact offline_run_reachable|].
  repeat split; try reflexivity. by vm_compute.
Qed.

Lemma each_key_written_once_on_success_witness :
  reachable (dag (src := named_source)) full_run ∧
  (pushes (log (world full_run)) =
     [("extract", "order_data"); ("transform", "total_order_value")] ∧
   NoDup (pushes (log (world full_run)))) ∧
  pushes (log (extract (src := named_source) (context "extract") w_fresh).2) =
    [("extract", "order_data")] ∧
  pushes (log (transform (context "transform") w_fresh).2) =
    [("transform", "total_order_value")].
Proof.
  split; [exact full_run_reachable|].
  exact (each_key_written_once_on_success (src := named_source) full_run
           w_fresh full_run_reachable).
Defined.

Lemma extract_idempotent_witness :
  (∀ name s1 s2,
     (TrialOutcome (DatasetSource := named_source) name s1).1 =
     (TrialOutcome (DatasetSource := named_source) name s2).1) ∧
  (∀ data s1 s2,
     (get_split (DatasetSource := named_source) data s1).1 =
     (get_split (DatasetSource := named_source) data s2).1) ∧
  (extract (src := named_source) (context "extract") w_fresh).1 =
  (extract (src := named_source) (context "extract") w_published).1 ∧
  ∃ evs,
    log (extract (src := named_source) (context "extract") w_fresh).2 =
      log w_fresh ++ evs ∧
    log (extract (src := named_source) (context "extract") w_published).2 =
      log w_published ++ evs ∧
    ∃ me x, evs = [EvPush me "order_data" x] ∧
      xcom (extract (src := named_source) (context "extract") w_fresh).2
        !! (me, "order_data") = Some x ∧
      xcom (extract (src := named_source) (context "extract") w_published).2
        !! (me, "order_data") = Some x.
Proof.
  split; [reflexivity|]. split; [reflexivity|].
  apply (extract_idempotent (src := named_source) (backend := plain_backend)
           (context "extract") w_fresh w_published); reflexivity.
Defined.

(** Without the precondition the property is lost: a source that is up at
    one time and down at another makes two executions of extract differ. *)
Example extract_differs_on_flaky_source :
  let up := mkWorld (Frame := string) ∅ [] true in
  let down := mkWorld (Frame := string) ∅ [] false in
  is_ok (extract (src := flaky_source) (context "extract") up).1 = true ∧
  is_ok (extract (src := flaky_source) (context "extract") down).1 = false ∧
  pushes (log (extract (src := flaky_source) (context "extract") up).2) =
    [("extract", "order_data")] ∧
  pushes (log (extract (src := flaky_source) (context "extract") down).2) = [].
Proof. repeat split; reflexivity. Qed.

Lemma transform_propagates_none_witness :
  context "transform" !! "ti" = Some (KTi (Frame := string) "transform") ∧
  xcom w_fresh !! ("extract", "order_data") = None ∧
  transform (context "transform") w_fresh =
    (Ok PyNone,
     mkWorld (<[("transform", "total_order_value") := PyNone]> (xcom w_fresh))
             (log w_fresh ++ [EvPull "extract" "order_data"; EvPrint PyNone;
                              EvPush "transform" "total_order_value" PyNone])
             (env w_fresh)).
Proof.
  split; [reflexivity|]. split; [reflexivity|].
  apply (transform_propagates_none (context "transform") "transform" w_fresh);
    reflexivity.
Defined.

Lemma load_output_depends_on_total_only_witness :
  xcom w_left !! ("transform", "total_order_value") =
    xcom w_right !! ("transform", "total_order_value") ∧
  xcom w_left !! ("extract", "order_data") ≠
    xcom w_right !! ("extract", "order_data") ∧
  (load (context "load") w_left).1 = (load (context "load") w_right).1 ∧
  ∃ out,
    printed (log (load (context "load") w_left).2) =
      printed (log w_left) ++ out ∧
    printed (log (load (context "load") w_right).2) =
      printed (log w_right) ++ out.
Proof.
  split; [reflexivity|]. split; [by vm_compute|].
  apply (load_output_depends_on_total_only (context "load") w_left w_right).
  reflexivity.
Defined.

End Instances.

(** * Further properties of the callables and of the declaration *)

Section MoreProperties.

Context {Frame SrcState DataLoader Obj : Type}.
Context {src : DatasetSource Obj SrcState DataLoader}.
Context {backend : XComBackend Obj Frame}.

Abbreviation pyobj := (pyval Obj).
Abbreviation pyval := (pyval Frame).
Abbreviation kwval := (kwval Frame).
Abbreviation World := (World Frame SrcState).

Lemma added_app (w w' : World) (evs : list (event Frame)) :
  log w' = log w ++ evs -> added w w' = evs.
Proof. intros H. unfold added. rewrite H. apply drop_app_length. Qed.

Lemma added_none (w w' : World) : log w' = log w -> added w w' = [].
Proof. intros H. unfold added. rewrite H. apply drop_all. Qed.

(** X1. The stages compose to a pass-through.  Whenever the source delivers
    a training split [x] for "phase1" and the host's serialiser stores it as
    [y], running extract, transform and load one after the other succeeds;
    the store ends with [y] under both keys, the trace grows by extract's
    push, transform's pull, print and push, and load's pull and print, in
    this order, and what is printed is [y] twice: nothing of what the host
    stored is changed on the way. *)
Theorem pipeline_passes_train_split_through
    (w : World) (x : pyobj) (y : pyval) (s' : SrcState) :
  train_split_of "phase1" (env w) = (Ok x, s') ->
  serialize_object x = Ok y ->
  run_in_order w =
    (Ok PyNone,
     mkWorld (<[("transform", "total_order_value") := y]>
                (<[("extract", "order_data") := y]> (xcom w)))
             (log w ++
                [EvPush "extract" "order_data" y;
                 EvPull "extract" "order_data"; EvPrint y;
                 EvPush "transform" "total_order_value" y;
                 EvPull "transform" "total_order_value"; EvPrint y])
             s').
Proof.
  intros Hx Hy. unfold train_split_of in Hx.
  unfold run_in_order, bind at 1.
  assert (extract (context "extract") w =
            (Ok PyNone,
             mkWorld (<[("extract", "order_data") := y]> (xcom w))
                     (log w ++ [EvPush "extract" "order_data" y]) s')) as ->.
  { unfold extract, bind, kw_getitem, call_TrialOutcome, call_get_split, lift.
    unfold context. rewrite lookup_singleton_eq. simpl.
    destruct (TrialOutcome "phase1" (env w)) as [[data|e] s1]; simpl;
      [|discriminate].
    destruct (get_split data s1) as [[split|e] s2]; simpl; [|discriminate].
    injection Hx as -> ->. unfold serialize_value, object_serializable.
    by rewrite Hy. }
  unfold bind. rewrite transform_run. simpl. rewrite load_run. simpl.
  rewrite lookup_insert_eq, lookup_insert_eq. simpl.
  by rewrite <- !app_assoc.
Qed.

(** X2. Extract publishes last: whenever it raises, for whatever reason (no
    task instance, the source fails, the split cannot be subscripted or has
    no 'train' entry, the host refuses the value), the exchange store and
    the trace are exactly what they were, so a failed attempt leaves no
    partial write behind. *)
Theorem extract_failure_publishes_nothing
    (kwargs : gmap string kwval) (w : World) (e : exn) :
  (extract kwargs w).1 = Raise e ->
  xcom (extract kwargs w).2 = xcom w ∧
  log (extract kwargs w).2 = log w ∧
  added w (extract kwargs w).2 = [].
Proof.
  intros He. destruct (extract kwargs w) as [r w'] eqn:Hx. simpl in *.
  subst r. apply extract_raise in Hx as [Hxc Hlg].
  split; [done|]. split; [done|]. by apply added_none.
Qed.

(** X3. A split without a 'train' entry: extract raises [KeyError] for
    'train' after the source has been used (its state has moved on), and
    nothing is published. *)
Theorem extract_missing_train_key
    (kwargs : gmap string kwval) (me : string) (w : World)
    (data : DataLoader) (s1 s2 : SrcState) (d : list (string * pyobj)) :
  kwargs !! "ti" = Some (KTi me) ->
  TrialOutcome "phase1" (env w) = (Ok data, s1) ->
  get_split data s1 = (Ok (PyDict d), s2) ->
  dict_get d "train" = None ->
  extract kwargs w = (Raise (KeyError "train"), mkWorld (xcom w) (log w) s2).
Proof.
  intros Hti Hd Hs Hk.
  unfold extract, bind, kw_getitem, call_TrialOutcome, call_get_split, lift.
  rewrite Hti. simpl. rewrite Hd. simpl. rewrite Hs. simpl. by rewrite Hk.
Qed.

(** X4. Without a "ti" keyword argument each callable raises [KeyError] for
    "ti" at its first line and the world is untouched: extract has not
    contacted the source, transform and load have read and printed
    nothing. *)
Theorem callables_need_task_instance (kwargs : gmap string kwval) (w : World) :
  kwargs !! "ti" = None ->
  extract kwargs w = (Raise (KeyError "ti"), w) ∧
  transform kwargs w = (Raise (KeyError "ti"), w) ∧
  load kwargs w = (Raise (KeyError "ti"), w).
Proof.
  intros Hti. unfold extract, transform, load, bind, kw_getitem, lift.
  by rewrite Hti.
Qed.

(** X5. Transform touches one entry only, the one it writes, and never the
    one it reads; so running it again changes nothing in the store and
    prints the same value again. *)
Theorem transform_rerun_changes_nothing (me : string) (w : World) :
  delete (me, "total_order_value") (xcom (transform (context me) w).2) =
    delete (me, "total_order_value") (xcom w) ∧
  xcom (transform (context me) w).2 !! ("extract", "order_data") =
    xcom w !! ("extract", "order_data") ∧
  xcom (transform (context me) (transform (context me) w).2).2 =
    xcom (transform (context me) w).2 ∧
  printed (added (transform (context me) w).2
                 (transform (context me) (transform (context me) w).2).2) =
    printed (added w (transform (context me) w).2).
Proof.
  rewrite !transform_run. simpl.
  assert ((me, "total_order_value") ≠ ("extract", "order_data")) as Hne
    by (intros [= _ ?]; discriminate).
  rewrite lookup_insert_ne by done.
  split; [apply delete_insert_eq|]. split; [done|].
  split; [apply insert_insert_eq|].
  unfold added. simpl. by rewrite !drop_app_length.
Qed.

(** X6. Load finds what transform published only through the task id
    "transform", which it names literally.  After transform has run under
    the task id [me], load prints the value transform republished when [me]
    is "transform", and otherwise whatever was filed under
    ("transform", "total_order_value") before, [None] if nothing was. *)
Theorem load_reads_transform_by_name (me : string) (w : World) :
  printed (added (transform (context me) w).2
                 (load (context "load") (transform (context me) w).2).2) =
    [if decide (me = "transform")
     then default PyNone (xcom w !! ("extract", "order_data"))
     else default PyNone (xcom w !! ("transform", "total_order_value"))].
Proof.
  rewrite load_run, transform_run. simpl.
  unfold added. simpl. rewrite drop_app_length. simpl.
  case_decide as Hme.
  - subst me. by rewrite lookup_insert_eq.
  - rewrite lookup_insert_ne; [done|]. congruence.
Qed.

(** X7. Reads follow the declared graph.  For every operator of the
    workflow, run under the context of its own task, every key it pulls
    belongs to a task declared upstream of it, and every key it pushes is
    filed under its own task id. *)
Theorem reads_follow_the_graph (op : @Operator Frame SrcState) (w : World) :
  op ∈ task_dict dag ->
  Forall (fun p => p.1 ∈ upstream dag (task_id op))
         (pulls (added w (python_callable op (context (task_id op)) w).2)) ∧
  Forall (fun p => p.1 = task_id op)
         (pushes (added w (python_callable op (context (task_id op)) w).2)).
Proof.
  intros [->|[->| ->]]%dag_task_cases; simpl.
  - destruct (extract (context "extract") w) as [[v|e] w'] eqn:Hx; simpl.
    + apply extract_ok in Hx
        as (me & ? & ? & ? & s2 & x & y & Hme & _ & _ & _ & _ & _ & ->).
      unfold context in Hme. rewrite lookup_singleton_eq in Hme.
      injection Hme as <-.
      unfold added. simpl. rewrite drop_app_length. simpl.
      split; [constructor|]. by repeat constructor.
    + apply extract_raise in Hx as [_ Hlg]. rewrite (added_none _ _ Hlg).
      split; constructor.
  - rewrite transform_run. unfold added. simpl. rewrite drop_app_length. simpl.
    split; repeat constructor.
  - rewrite load_run. unfold added. simpl. rewrite drop_app_length. simpl.
    split; repeat constructor.
Qed.

(** X8. Extract does not look at the exchange store or at the trace: from
    two worlds whose source is in the same state it ends the same way,
    leaves the source in the same state and adds the same events, whatever
    the two stores hold. *)
Theorem extract_ignores_the_store
    (kwargs : gmap string kwval) (w1 w2 : World) :
  env w1 = env w2 ->
  (extract kwargs w1).1 = (extract kwargs w2).1 ∧
  env (extract kwargs w1).2 = env (extract kwargs w2).2 ∧
  added w1 (extract kwargs w1).2 = added w2 (extract kwargs w2).2.
Proof.
  intros Henv.
  unfold extract, bind, kw_getitem, call_TrialOutcome, call_get_split, lift.
  destruct (kwargs !! "ti") as [ti|]; simpl.
  2:{ unfold added. simpl. by rewrite !drop_all. }
  rewrite <- Henv.
  destruct (TrialOutcome "phase1" (env w1)) as [[data|e] s1]; simpl.
  2:{ unfold added. simpl. by rewrite !drop_all. }
  destruct (get_split data s1) as [[split|e] s2]; simpl.
  2:{ unfold added. simpl. by rewrite !drop_all. }
  destruct (getitem split "train") as [x|e]; simpl.
  2:{ unfold added. simpl. by rewrite !drop_all. }
  destruct ti as [me|o]; simpl.
  2:{ unfold added. simpl. by rewrite !drop_all. }
  unfold serialize_value, object_serializable.
  destruct (serialize_object x) as [y|e]; simpl.
  2:{ unfold added. simpl. by rewrite !drop_all. }
  unfold added. simpl. by rewrite !drop_app_length.
Qed.

(** X9. A value the host cannot serialise: when the source delivers the
    training split but the host's serialiser refuses it, extract raises the
    serialiser's exception at its last line, after the source has been used,
    and nothing is filed. *)
Theorem extract_refused_push
    (kwargs : gmap string kwval) (me : string) (w : World) (x : pyobj)
    (e : exn) (s' : SrcState) :
  kwargs !! "ti" = Some (KTi me) ->
  train_split_of "phase1" (env w) = (Ok x, s') ->
  serialize_object x = Raise e ->
  extract kwargs w = (Raise e, mkWorld (xcom w) (log w) s').
Proof.
  intros Hti Hx He. unfold train_split_of in Hx.
  unfold extract, bind, kw_getitem, call_TrialOutcome, call_get_split, lift.
  rewrite Hti. simpl.
  destruct (TrialOutcome "phase1" (env w)) as [[data|e1] s1]; simpl;
    [|discriminate].
  destruct (get_split data s1) as [[split|e2] s2]; simpl; [|discriminate].
  injection Hx as -> ->. unfold serialize_value, object_serializable.
  by rewrite He.
Qed.

End MoreProperties.

(** * The further properties on concrete inputs *)

Section MoreInstances.
Import Demo DemoRuns.

Lemma pipeline_passes_train_split_through_witness :
  train_split_of (src := named_source) "phase1" (env w_fresh) =
    (Ok (PyFrame "phase1/train"), 1) ∧
  serialize_object (XComBackend := plain_backend) (PyFrame "phase1/train") =
    Ok (PyFrame "phase1/train") ∧
  run_in_order (src := named_source) w_fresh =
    (Ok PyNone,
     mkWorld (<[("transform", "total_order_value") := PyFrame "phase1/train"]>
                (<[("extract", "order_data") := PyFrame "phase1/train"]>
                   (xcom w_fresh)))
             (log w_fresh ++
                [EvPush "extract" "order_data" (PyFrame "phase1/train");
                 EvPull "extract" "order_data"; EvPrint (PyFrame "phase1/train");
                 EvPush "transform" "total_order_value" (PyFrame "phase1/train");
                 EvPull "transform" "total_order_value";
                 EvPrint (PyFrame "phase1/train")])
             1).
Proof.
  split; [reflexivity|]. split; [reflexivity|].
  apply (pipeline_passes_train_split_through (src := named_source)
           (backend := plain_backend) w_fresh
           (PyFrame "phase1/train") (PyFrame "phase1/train") 1); reflexivity.
Defined.

Lemma extract_failure_publishes_nothing_witness :
  (extract (src := offline_source) (context "extract") w_published).1 =
    Raise (LibraryError "dataset unavailable") ∧
  xcom (extract (src := offline_source) (context "extract") w_published).2 =
    xcom w_published ∧
  log (extract (src := offline_source) (context "extract") w_published).2 =
    log w_published ∧
  added w_published
    (extract (src := offline_source) (context "extract") w_published).2 = [].
Proof.
  split; [reflexivity|].
  apply (extract_failure_publishes_nothing (src := offline_source)
           (context "extract") w_published
           (LibraryError "dataset unavailable")); reflexivity.
Defined.

Lemma extract_missing_train_key_witness :
  context "extract" !! "ti" = Some (KTi (Frame := string) "extract") ∧
  TrialOutcome (DatasetSource := trainless_source) "phase1" (env w_fresh) =
    (Ok "phase1", 1) ∧
  get_split (DatasetSource := trainless_source) "phase1" 1 =
    (Ok (PyDict [("valid", PyFrame "phase1/valid");
                 ("test", PyFrame "phase1/test")]), 1) ∧
  dict_get [("valid", PyFrame "phase1/valid"); ("test", PyFrame "phase1/test")]
           "train" = None ∧
  extract (src := trainless_source) (context "extract") w_fresh =
    (Raise (KeyError "train"), mkWorld (xcom w_fresh) (log w_fresh) 1).
Proof.
  split; [reflexivity|]. split; [reflexivity|]. split; [reflexivity|].
  split; [reflexivity|].
  apply (extract_missing_train_key (src := trainless_source)
           (context "extract") "extract" w_fresh "phase1" 1 1
           [("valid", PyFrame "phase1/valid"); ("test", PyFrame "phase1/test")]);
    reflexivity.
Defined.

Lemma callables_need_task_instance_witness :
  (∅ : gmap string (kwval string)) !! "ti" = None ∧
  extract (src := named_source) ∅ w_fresh = (Raise (KeyError "ti"), w_fresh) ∧
  transform ∅ w_fresh = (Raise (KeyError "ti"), w_fresh) ∧
  load ∅ w_fresh = (Raise (KeyError "ti"), w_fresh).
Proof.
  split; [reflexivity|].
  apply (callables_need_task_instance (src := named_source) ∅ w_fresh).
  reflexivity.
Defined.

Lemma reads_follow_the_graph_witness :
  transform_task ∈ task_dict (dag (src := named_source)) ∧
  Forall (fun p => p.1 ∈ upstream (dag (src := named_source)) "transform")
         (pulls (added w_published
                   (transform (context "transform") w_published).2)) ∧
  Forall (fun p => p.1 = "transform")
         (pushes (added w_published
                    (transform (context "transform") w_published).2)).
Proof.
  split; [apply transform_task_in|].
  exact (reads_follow_the_graph (src := named_source) transform_task
           w_published transform_task_in).
Defined.

Lemma extract_ignores_the_store_witness :
  env w_fresh = env w_left ∧
  xcom w_fresh ≠ xcom w_left ∧
  (extract (src := named_source) (context "extract") w_fresh).1 =
  (extract (src := named_source) (context "extract") w_left).1 ∧
  env (extract (src := named_source) (context "extract") w_fresh).2 =
  env (extract (src := named_source) (context "extract") w_left).2 ∧
  added w_fresh (extract (src := named_source) (context "extract") w_fresh).2 =
  added w_left (extract (src := named_source) (context "extract") w_left).2.
Proof.
  split; [reflexivity|]. split.
  - intros H. apply (f_equal (fun m => m !! ("extract", "order_data"))) in H.
    vm_compute in H. discriminate H.
  - apply (extract_ignores_the_store (src := named_source)
             (context "extract") w_fresh w_left). reflexivity.
Defined.

Lemma extract_refused_push_witness :
  context "extract" !! "ti" = Some (KTi (Frame := string) "extract") ∧
  train_split_of (src := named_source) "phase1" (env w_published) =
    (Ok (PyFrame "phase1/train"), 2) ∧
  serialize_object (XComBackend := strict_backend) (PyFrame "phase1/train") =
    Raise TypeError ∧
  extract (src := named_source) (backend := strict_backend)
          (context "extract") w_published =
    (Raise TypeError, mkWorld (xcom w_published) (log w_published) 2).
Proof.
  split; [reflexivity|]. split; [reflexivity|]. split; [reflexivity|].
  apply (extract_refused_push (src := named_source) (backend := strict_backend)
           (context "extract") "extract" w_published (PyFrame "phase1/train")
           TypeError 2); reflexivity.
Defined.

End MoreInstances.
